(** * tinygrad/ops/ops_gpu.py: the GPU operator layer

    Shallow embedding of the differentiable operators of [ops_gpu.py].
    Each operator's [forward] and [backward] is a computation in a small
    error-and-trace monad: Python exceptions become [Err], and every call
    of a device-level primitive of [llops.opencl] is appended to a trace.
    Device buffers are symbolic terms that record how they were produced,
    so a buffer's shape and its producing primitive can be read off it. *)

From Stdlib Require Import ZArith List String Bool Lia Permutation.
Import ListNotations.
Open Scope Z_scope.

(** ** Python values and exceptions *)

Inductive exn :=
| TypeError
| ValueError
| IndexError
| ZeroDivisionError
| AssertionError
| Exception (msg : string).

Inductive result (A : Type) :=
| Ok (a : A)
| Err (e : exn).
Arguments Ok {A} a.
Arguments Err {A} e.

(** Python indexing [l[i]]: negative indices count from the end. *)
Definition py_index {A} (l : list A) (i : Z) : result A :=
  let j := if i <? 0 then i + Z.of_nat (List.length l) else i in
  if j <? 0 then Err IndexError
  else match nth_error l (Z.to_nat j) with
       | Some a => Ok a
       | None => Err IndexError
       end.

(** Python [a // b] and [a % b] on ints: floor division, error on zero. *)
Definition py_floordiv (a b : Z) : result Z :=
  if b =? 0 then Err ZeroDivisionError else Ok (a / b).

Definition py_mod (a b : Z) : result Z :=
  if b =? 0 then Err ZeroDivisionError else Ok (a mod b).

(** Tuple unpacking [a, b = t] and [a, b, c, d = t]. *)
Definition unpack2 (l : list Z) : result (Z * Z) :=
  match l with
  | [a; b] => Ok (a, b)
  | _ => Err ValueError
  end.

Definition unpack4 (l : list Z) : result (Z * Z * Z * Z) :=
  match l with
  | [a; b; c; d] => Ok (a, b, c, d)
  | _ => Err ValueError
  end.

(** numpy's [int64] arithmetic wraps around silently. *)
Definition int64_wrap (z : Z) : Z := (z + 2 ^ 63) mod 2 ^ 64 - 2 ^ 63.

(** The product of the entries, unbounded. *)
Definition zprod (l : list Z) : Z := fold_right Z.mul 1 l.

(** [np.prod] on a shape of ints (each in the [int64] range): the product
    computed in [int64], wrapping around on overflow.  On the empty shape
    numpy returns the float [1.0], of the same value. *)
Definition prod (l : list Z) : Z := int64_wrap (zprod l).

(** ** Device buffers and primitives *)

(** The device-level primitives imported from [llops.opencl]. *)
Inductive prim :=
| P_unary_op
| P_binary_op
| P_reduce_op
| P_perm_axis
| P_inner_slice
| P_matmul
| P_conv
| P_convdw
| P_convdx.

(** A device buffer, as the term that produced it.  [BInput] is a buffer
    handed to an operator, [BFresh sh] is [Buffer(sh)], [BView sh h] is
    [Buffer(sh, hostbuf=h)] (no copy), and the remaining constructors are
    the output buffer [out] after a primitive has written into it. *)
Inductive buf :=
| BInput (name : string) (shape : list Z)
| BFresh (shape : list Z)
| BView (shape : list Z) (host : buf)
| BUnary (code : string) (a out : buf)
| BBinary (code : string) (a b out : buf)
| BReduce (code : string) (a out : buf) (start : option string)
| BPerm (a : buf) (order : list Z) (out : buf)
| BSlice (a : buf) (arg : list (Z * Z)) (out : buf)
| BMatmul (a b out : buf) (transpose_a transpose_b : bool)
| BConv (x w out : buf) (conv_args : list Z)
| BConvdw (x g out : buf) (conv_args : list Z)
| BConvdx (w g out : buf) (conv_args : list Z).

(** [buf.shape] *)
Fixpoint shape (b : buf) : list Z :=
  match b with
  | BInput _ s | BFresh s | BView s _ => s
  | BUnary _ _ o | BBinary _ _ _ o | BReduce _ _ o _ | BPerm _ _ o
  | BSlice _ _ o | BMatmul _ _ o _ _ | BConv _ _ o _ | BConvdw _ _ o _
  | BConvdx _ _ o _ => shape o
  end.

(** The primitive that last wrote a buffer, if any. *)
Definition produced_by (b : buf) : option prim :=
  match b with
  | BInput _ _ | BFresh _ | BView _ _ => None
  | BUnary _ _ _ => Some P_unary_op
  | BBinary _ _ _ _ => Some P_binary_op
  | BReduce _ _ _ _ => Some P_reduce_op
  | BPerm _ _ _ => Some P_perm_axis
  | BSlice _ _ _ => Some P_inner_slice
  | BMatmul _ _ _ _ _ => Some P_matmul
  | BConv _ _ _ _ => Some P_conv
  | BConvdw _ _ _ _ => Some P_convdw
  | BConvdx _ _ _ _ => Some P_convdx
  end.

(** [Buffer(shape)] and [Buffer(shape, hostbuf=h)]. *)
Definition Buffer (sh : list Z) : buf := BFresh sh.
Definition Buffer_hostbuf (sh : list Z) (h : buf) : buf := BView sh h.

(** ** The error-and-trace monad *)

Definition trace := list prim.
Definition M (A : Type) := trace -> result A * trace.

Definition ret {A} (a : A) : M A := fun tr => (Ok a, tr).
Definition raise {A} (e : exn) : M A := fun tr => (Err e, tr).
Definition bind {A B} (m : M A) (k : A -> M B) : M B :=
  fun tr => match m tr with
            | (Ok a, tr') => k a tr'
            | (Err e, tr') => (Err e, tr')
            end.
Definition lift {A} (r : result A) : M A :=
  match r with Ok a => ret a | Err e => raise e end.
Definition assert (b : bool) : M unit :=
  if b then ret tt else raise AssertionError.

Notation "x <- m ;; k" := (bind m (fun x => k))
  (at level 61, m at next level, right associativity).
Notation "' p <- m ;; k" := (bind m (fun x => match x with p => k end))
  (at level 61, p pattern, m at next level, right associativity).
Notation "m ;;; k" := (bind m (fun _ => k))
  (at level 61, right associativity).

(** Running from an empty trace; [eval] keeps only the outcome. *)
Definition run {A} (m : M A) : result A * trace := m [].
Definition eval {A} (m : M A) : result A := fst (run m).

(** Modelled from the spec: the device-level primitives of [llops.opencl]
    ([unary_op], [binary_op], [reduce_op], [perm_axis], [inner_slice],
    [matmul], [conv], [convdw], [convdx]) are not part of this source.
    Each one runs a kernel that writes its result into the output buffer it
    is given and returns that buffer; the call is recorded in the trace.
    [reduce_op]'s [start] is [None] when the caller leaves it at its default. *)
Definition unary_op (code : string) (a out : buf) : M buf :=
  fun tr => (Ok (BUnary code a out), tr ++ [P_unary_op]).
Definition binary_op (code : string) (a b out : buf) : M buf :=
  fun tr => (Ok (BBinary code a b out), tr ++ [P_binary_op]).
Definition reduce_op (code : string) (a out : buf) (start : option string) : M buf :=
  fun tr => (Ok (BReduce code a out start), tr ++ [P_reduce_op]).
Definition perm_axis (a : buf) (order : list Z) (out : buf) : M buf :=
  fun tr => (Ok (BPerm a order out), tr ++ [P_perm_axis]).
Definition inner_slice (a : buf) (arg : list (Z * Z)) (out : buf) : M buf :=
  fun tr => (Ok (BSlice a arg out), tr ++ [P_inner_slice]).
Definition matmul (a b out : buf) (transpose_a transpose_b : bool) : M buf :=
  fun tr => (Ok (BMatmul a b out transpose_a transpose_b), tr ++ [P_matmul]).
Definition conv (x w out : buf) (conv_args : list Z) : M buf :=
  fun tr => (Ok (BConv x w out conv_args), tr ++ [P_conv]).
Definition convdw (x g out : buf) (conv_args : list Z) : M buf :=
  fun tr => (Ok (BConvdw x g out conv_args), tr ++ [P_convdw]).
Definition convdx (w g out : buf) (conv_args : list Z) : M buf :=
  fun tr => (Ok (BConvdx w g out conv_args), tr ++ [P_convdx]).

(** [f(...) if ctx.needs_input_grad[i] else None] *)
Definition if_needed (needed : bool) (m : M buf) : M (option buf) :=
  if needed then (b <- m ;; ret (Some b)) else ret None.

(** ** Unary ops *)

Module UnaryOp.
(** [ctx.save_for_backward(input)]; the saved state is [input]. *)
Definition forward (fop : string) (input : buf) : M (buf * buf) :=
  r <- unary_op fop input (Buffer (shape input)) ;;
  ret (input, r).

Definition backward (bop : string) (input grad_output : buf) : M buf :=
  binary_op bop input grad_output (Buffer (shape input)).
End UnaryOp.

Definition ReLU_fop : string := "max(a, (float)0.)".
Definition ReLU_bop : string := "b * (a >= 0)".
Definition Log_fop : string := "log(a)".
Definition Log_bop : string := "b / a".
Definition Exp_fop : string := "exp(a)".
Definition Exp_bop : string := "b * exp(a)".

(** ** Reduce ops *)

(** The [axis] argument as Python receives it. *)
Inductive pyaxis :=
| AxNone
| AxInt (a : Z)
| AxSeq (l : list Z).

(** [osize = np.array(shape); osize[list(axis)] = 1; return osize].
    [list(None)] and [list(int)] raise [TypeError]; numpy fancy assignment
    raises [IndexError] on an index outside [-n, n) and otherwise sets every
    listed position (negative ones counted from the end) to 1. *)
Definition reduce_shape (sh : list Z) (axis : pyaxis) : result (list Z) :=
  match axis with
  | AxNone | AxInt _ => Err TypeError
  | AxSeq l =>
      let n := Z.of_nat (List.length sh) in
      let norm a := if a <? 0 then a + n else a in
      if forallb (fun a => (- n <=? a) && (a <? n)) l then
        Ok (map (fun '(k, s) => if existsb (fun a => norm a =? k) l then 1 else s)
                (combine (map Z.of_nat (seq 0 (List.length sh))) sh))
      else Err IndexError
  end.

Module Sum.
(** Saved state: [input.shape]. *)
Definition forward (input : buf) (axis : pyaxis) : M (list Z * buf) :=
  osize <- lift (reduce_shape (shape input) axis) ;;
  r <- reduce_op "out += a" input (Buffer osize) None ;;
  ret (shape input, r).

Definition backward (shape_input : list Z) (grad_output : buf) : M buf :=
  let r := Buffer shape_input in
  binary_op "a" grad_output r r.
End Sum.

Module Max.
(** Saved state: [(input, axis, ret)]. *)
Definition forward (input : buf) (axis : pyaxis) : M ((buf * pyaxis * buf) * buf) :=
  osize <- lift (reduce_shape (shape input) axis) ;;
  r <- reduce_op "out = max(a,out)" input (Buffer osize) (Some "-INFINITY"%string) ;;
  ret ((input, axis, r), r).

(** [ret2] is updated in place twice; each update rebinds it here. *)
Definition backward (saved : buf * pyaxis * buf) (grad_output : buf) : M buf :=
  let '(input, axis, r) := saved in
  ret2 <- binary_op "1.0*(a==b)" input r (Buffer (shape input)) ;;
  osize <- lift (reduce_shape (shape ret2) axis) ;;
  div <- reduce_op "out += a" ret2 (Buffer osize) (Some "1e-10"%string) ;;
  ret2 <- binary_op "a/b" ret2 div ret2 ;;
  binary_op "a*b" ret2 grad_output ret2.
End Max.

(** ** Binary ops *)

(** [unbroadcast(out, in_sh)] *)
Definition unbroadcast (out : buf) (in_sh : list Z) : M buf :=
  reduce_op "out += a" out (Buffer in_sh) None.

Section BinaryOps.
(** [tinygrad.helpers.binary_broadcast], which is not part of this
    source; it returns the broadcast shape or raises. *)
Variable binary_broadcast : list Z -> list Z -> result (list Z).

(** The common forward of Add, Sub, Mul and Pow:
    [binary_op(code, x, y, Buffer(binary_broadcast(x.shape, y.shape)))]. *)
Definition binary_forward (code : string) (x y : buf) : M buf :=
  sh <- lift (binary_broadcast (shape x) (shape y)) ;;
  binary_op code x y (Buffer sh).

Definition Add_forward (x y : buf) : M ((list Z * list Z) * buf) :=
  r <- binary_forward "a+b" x y ;; ret ((shape x, shape y), r).
Definition Sub_forward (x y : buf) : M ((list Z * list Z) * buf) :=
  r <- binary_forward "a-b" x y ;; ret ((shape x, shape y), r).
Definition Mul_forward (x y : buf) : M ((buf * buf) * buf) :=
  r <- binary_forward "a*b" x y ;; ret ((x, y), r).
Definition Pow_forward (x y : buf) : M ((buf * buf) * buf) :=
  r <- binary_forward "pow(a,b)" x y ;; ret ((x, y), r).
End BinaryOps.

Definition Add_backward (needs_input_grad : bool * bool) (saved : list Z * list Z)
    (grad_output : buf) : M (option buf * option buf) :=
  let '(shape_x, shape_y) := saved in
  gx <- if_needed (fst needs_input_grad) (unbroadcast grad_output shape_x) ;;
  gy <- if_needed (snd needs_input_grad) (unbroadcast grad_output shape_y) ;;
  ret (gx, gy).

Definition Sub_backward (needs_input_grad : bool * bool) (saved : list Z * list Z)
    (grad_output : buf) : M (option buf * option buf) :=
  let '(shape_x, shape_y) := saved in
  gx <- if_needed (fst needs_input_grad) (unbroadcast grad_output shape_x) ;;
  gy <- if_needed (snd needs_input_grad)
          (n <- unary_op "-a" grad_output (Buffer (shape grad_output)) ;;
           unbroadcast n shape_y) ;;
  ret (gx, gy).

(** [tmp] is one buffer shared by both gradients: the second [binary_op]
    writes into the [tmp] the first one left behind. *)
Definition Mul_backward (needs_input_grad : bool * bool) (saved : buf * buf)
    (grad_output : buf) : M (option buf * option buf) :=
  let '(x, y) := saved in
  let tmp := Buffer (shape grad_output) in
  '(grad_x, tmp) <-
    (if fst needs_input_grad then
       t <- binary_op "a*b" y grad_output tmp ;;
       gx <- unbroadcast t (shape x) ;; ret (Some gx, t)
     else ret (None, tmp)) ;;
  grad_y <- if_needed (snd needs_input_grad)
              (t <- binary_op "a*b" x grad_output tmp ;; unbroadcast t (shape y)) ;;
  ret (grad_x, grad_y).

Definition Pow_backward (needs_input_grad : bool * bool) (saved : buf * buf)
    (grad_output : buf) : M (option buf * option buf) :=
  let '(x, y) := saved in
  let tmp := Buffer (shape grad_output) in
  '(grad_x, tmp) <-
    (if fst needs_input_grad then
       t <- binary_op "b * pow(a, b-1.0f)" x y tmp ;;
       t <- binary_op "a*b" grad_output t t ;;
       gx <- unbroadcast t (shape x) ;; ret (Some gx, t)
     else ret (None, tmp)) ;;
  grad_y <- if_needed (snd needs_input_grad)
              (t <- binary_op "log(a) * pow(a, b)" x y tmp ;;
               t <- binary_op "a*b" grad_output t t ;;
               unbroadcast t (shape y)) ;;
  ret (grad_x, grad_y).

(** ** Movement ops *)

(** A list comprehension whose element expression may raise. *)
Fixpoint map_result {A B} (f : A -> result B) (l : list A) : result (list B) :=
  match l with
  | [] => Ok []
  | a :: l' =>
      match f a with
      | Err e => Err e
      | Ok b => match map_result f l' with
                | Err e => Err e
                | Ok bs => Ok (b :: bs)
                end
      end
  end.

Module Reshape.
(** [-np.prod(x.shape) // np.prod(shape)]: the negation and numpy's
    [int64] floor division wrap around (the quotient only for
    [INT64_MIN // -1], which numpy returns as [INT64_MIN]); division by
    zero gives 0, as [Z.div] does.  (When [x.shape] is [()], numpy computes
    the same value as a float.) *)
Definition new_shape (x_shape sh : list Z) : list Z :=
  map (fun s => if s =? -1 then int64_wrap (int64_wrap (- prod x_shape) / prod sh)
                else s) sh.

Definition forward (x : buf) (sh : list Z) : M (list Z * buf) :=
  let r := Buffer_hostbuf (new_shape (shape x) sh) x in
  assert (prod (shape x) =? prod (shape r)) ;;;
  ret (shape x, r).

Definition backward (in_shape : list Z) (grad_output : buf) : M buf :=
  ret (Buffer_hostbuf in_shape grad_output).
End Reshape.

(** [np.argsort] of a list of ints: position [j] holds the index of the
    element of rank [j], where the rank of [l[i]] counts the smaller
    elements and the equal ones before [i].  Ties are broken in index
    order; numpy's default sort is not stable, so on repeated entries it
    may order them otherwise.  The properties below use [argsort] only on
    permutations, which have no ties. *)
Definition countb (f : Z -> bool) (l : list Z) : nat := List.length (filter f l).

Definition rank (l : list Z) (i : nat) : nat :=
  let v := nth i l 0 in
  Nat.add (countb (fun u => u <? v) l) (countb (fun u => u =? v) (firstn i l)).

Definition argsort (l : list Z) : list Z :=
  map (fun j => match find (fun i => Nat.eqb (rank l i) j) (seq 0 (List.length l)) with
                | Some i => Z.of_nat i
                | None => 0
                end)
      (seq 0 (List.length l)).

Module Transpose.
(** Saved state: [ctx.order]. *)
Definition forward (x : buf) (order : list Z) : M (list Z * buf) :=
  sh <- lift (map_result (py_index (shape x)) order) ;;
  r <- perm_axis x order (Buffer sh) ;;
  ret (order, r).

Definition backward (order : list Z) (grad_output : buf) : M buf :=
  let norder := argsort order in
  sh <- lift (map_result (py_index (shape grad_output)) norder) ;;
  perm_axis grad_output norder (Buffer sh).
End Transpose.

Module Slice.
(** [arg=None] fails when the comprehension iterates it. *)
Definition forward (x : buf) (arg : option (list (Z * Z))) : M (list Z * buf) :=
  match arg with
  | None => raise TypeError
  | Some a =>
      r <- inner_slice x a (Buffer (map (fun y => snd y - fst y) a)) ;;
      ret (shape x, r)
  end.

(** One entry of [narg]: [(0-p[0], grad_output.shape[i]+(shape[i]-p[1]))]
    for [i, p] in [enumerate(ctx.arg)]. *)
Definition narg_entry (g_shape in_shape : list Z) (ip : nat * (Z * Z)) : result (Z * Z) :=
  let '(i, p) := ip in
  match py_index g_shape (Z.of_nat i) with
  | Err e => Err e
  | Ok gs =>
      match py_index in_shape (Z.of_nat i) with
      | Err e => Err e
      | Ok s => Ok (0 - fst p, gs + (s - snd p))
      end
  end.

(** Saved state: [x.shape]; [arg] is [ctx.arg]. *)
Definition backward (in_shape : list Z) (arg : list (Z * Z)) (grad_output : buf) : M buf :=
  narg <- lift (map_result (narg_entry (shape grad_output) in_shape)
                  (combine (seq 0 (List.length arg)) arg)) ;;
  inner_slice grad_output narg (Buffer (map (fun y => snd y - fst y) narg)).
End Slice.

(** ** Processing ops *)

Module Matmul.
Definition forward (input weight : buf) : M ((buf * buf) * buf) :=
  a <- lift (py_index (shape input) (-1)) ;;
  b <- lift (py_index (shape weight) (-2)) ;;
  assert (a =? b) ;;;
  n <- lift (py_index (shape weight) (-1)) ;;
  let r := Buffer (firstn (pred (List.length (shape input))) (shape input) ++ [n]) in
  out <- matmul input weight r false false ;;
  ret ((input, weight), out).

Definition backward (needs_input_grad : bool * bool) (saved : buf * buf)
    (grad_output : buf) : M (option buf * option buf) :=
  let '(input, weight) := saved in
  grad_input <- if_needed (fst needs_input_grad)
                  (matmul grad_output weight (Buffer (shape input)) false true) ;;
  grad_weight <- if_needed (snd needs_input_grad)
                   (matmul input grad_output (Buffer (shape weight)) true false) ;;
  ret (grad_input, grad_weight).
End Matmul.

(** [ctx.stride] is an int or a tuple. *)
Inductive pystride :=
| SInt (s : Z)
| STuple (l : list Z).

Record conv_ctx := { stride : pystride; groups : Z }.

(** [if isinstance(ctx.stride, int): ctx.stride = (ctx.stride, ctx.stride)] *)
Definition promote_stride (s : pystride) : pystride :=
  match s with
  | SInt s => STuple [s; s]
  | t => t
  end.

(** [ys, xs = ctx.stride] *)
Definition unpack_stride (s : pystride) : result (Z * Z) :=
  match s with
  | SInt _ => Err TypeError
  | STuple l => unpack2 l
  end.

Definition conv_mismatch_msg : string :=
  "Input Tensor shape does not match the shape of the weights".

Module Conv2D.
(** Returns the updated [ctx] (its stride promoted) and the saved [(x, w)]. *)
Definition forward (ctx : conv_ctx) (x w : buf)
    : M ((conv_ctx * (buf * buf)) * buf) :=
  let ctx := {| stride := promote_stride (stride ctx); groups := groups ctx |} in
  '(cout, cin, H, W) <- lift (unpack4 (shape w)) ;;
  '(ys, xs) <- lift (unpack_stride (stride ctx)) ;;
  '(bs, cin_, iy, ix) <- lift (unpack4 (shape x)) ;;
  oy <- lift (py_floordiv (iy - (H - ys)) ys) ;;
  ox <- lift (py_floordiv (ix - (W - xs)) xs) ;;
  (if cin * groups ctx =? cin_ then ret tt
   else raise (Exception conv_mismatch_msg)) ;;;
  m <- lift (py_mod cout (groups ctx)) ;;
  assert (m =? 0) ;;;
  rcout <- lift (py_floordiv cout (groups ctx)) ;;
  let conv_args := [H; W; groups ctx; rcout; cin; oy; ox; iy; ix; ys; xs; bs] in
  r <- conv x w (Buffer [bs; cout; oy; ox]) conv_args ;;
  ret ((ctx, (x, w)), r).

Definition backward (needs_input_grad : bool * bool) (ctx : conv_ctx)
    (saved : buf * buf) (grad_output : buf) : M (option buf * option buf) :=
  let '(x, w) := saved in
  '(bs, _, oy, ox) <- lift (unpack4 (shape grad_output)) ;;
  '(cout, cin, H, W) <- lift (unpack4 (shape w)) ;;
  '(ys, xs) <- lift (unpack_stride (stride ctx)) ;;
  '(bs, cin_, iy, ix) <- lift (unpack4 (shape x)) ;;
  oy <- lift (py_floordiv (iy - (H - ys)) ys) ;;
  ox <- lift (py_floordiv (ix - (W - xs)) xs) ;;
  assert (cin * groups ctx =? cin_) ;;;
  m <- lift (py_mod cout (groups ctx)) ;;
  assert (m =? 0) ;;;
  rcout <- lift (py_floordiv cout (groups ctx)) ;;
  let conv_args := [H; W; groups ctx; rcout; cin; oy; ox; iy; ix; ys; xs; bs] in
  dx <- if_needed (fst needs_input_grad)
          (convdx w grad_output (Buffer [bs; cin_; iy; ix]) conv_args) ;;
  dw <- if_needed (snd needs_input_grad)
          (convdw x grad_output (Buffer [cout; cin; H; W]) conv_args) ;;
  ret (dx, dw).
End Conv2D.

(** ** Every operator's forward, by operator *)

Inductive forward_call :=
| FReLU (x : buf)
| FLog (x : buf)
| FExp (x : buf)
| FSum (x : buf) (axis : pyaxis)
| FMax (x : buf) (axis : pyaxis)
| FAdd (x y : buf)
| FSub (x y : buf)
| FMul (x y : buf)
| FPow (x y : buf)
| FReshape (x : buf) (sh : list Z)
| FTranspose (x : buf) (order : list Z)
| FSlice (x : buf) (arg : option (list (Z * Z)))
| FMatmul (input weight : buf)
| FConv2D (ctx : conv_ctx) (x w : buf).

Definition output {S} (m : M (S * buf)) : M buf := p <- m ;; ret (snd p).

(** The buffer each operator's [forward] returns. *)
Definition forward_output (binary_broadcast : list Z -> list Z -> result (list Z))
    (c : forward_call) : M buf :=
  match c with
  | FReLU x => output (UnaryOp.forward ReLU_fop x)
  | FLog x => output (UnaryOp.forward Log_fop x)
  | FExp x => output (UnaryOp.forward Exp_fop x)
  | FSum x axis => output (Sum.forward x axis)
  | FMax x axis => output (Max.forward x axis)
  | FAdd x y => output (Add_forward binary_broadcast x y)
  | FSub x y => output (Sub_forward binary_broadcast x y)
  | FMul x y => output (Mul_forward binary_broadcast x y)
  | FPow x y => output (Pow_forward binary_broadcast x y)
  | FReshape x sh => output (Reshape.forward x sh)
  | FTranspose x order => output (Transpose.forward x order)
  | FSlice x arg => output (Slice.forward x arg)
  | FMatmul input weight => output (Matmul.forward input weight)
  | FConv2D ctx x w => output (Conv2D.forward ctx x w)
  end.

Definition result_map {A B} (f : A -> B) (r : result A) : result B :=
  match r with Ok a => Ok (f a) | Err e => Err e end.

(** ** Sanity checks on small inputs *)

Example argsort_ex : argsort [2; 0; 1] = [1; 2; 0].
Proof. reflexivity. Qed.

Example reduce_shape_ex : reduce_shape [2; 3; 4] (AxSeq [-1; 0]) = Ok [1; 3; 1].
Proof. reflexivity. Qed.

Example conv_shape_ex :
  result_map shape
    (eval (output (Conv2D.forward {| stride := SInt 2; groups := 1 |}
                     (BInput "x" [1; 3; 7; 7]) (BInput "w" [4; 3; 3; 3]))))
  = Ok [1; 4; 3; 3].
Proof. reflexivity. Qed.

(** ** Proof tools *)

Create HintDb ops.
#[export] Hint Unfold eval run bind ret raise lift assert if_needed output
  unbroadcast unary_op binary_op reduce_op perm_axis inner_slice matmul
  conv convdw convdx Buffer Buffer_hostbuf : ops.

Ltac no_match e :=
  lazymatch e with
  | context [match _ with _ => _ end] => fail
  | _ => idtac
  end.

(** Unfold the monad and split on every [match] the computation takes,
    innermost scrutinee first. *)
Ltac step_M :=
  repeat autounfold with ops in *; cbn in *;
  repeat match goal with
    | H : context [match ?e with _ => _ end] |- _ =>
        no_match e; let E := fresh "E" in destruct e eqn:E; cbn in *; try discriminate
    | |- context [match ?e with _ => _ end] =>
        no_match e; let E := fresh "E" in destruct e eqn:E; cbn in *; try discriminate
    end.

(** ** Claims *)

(** C1: the backward rules of Add and Sub.  After [forward(x, y)],
    Add.backward returns, for each input whose gradient is needed,
    [grad_output] reduce-summed with [reduce_op("out += a")] into a buffer of
    that input's shape; Sub.backward does the same for [x] and, for [y],
    reduce-sums the negation [unary_op('-a', grad_output)]. *)
Theorem add_sub_backward_rules :
  forall binary_broadcast x y (ng : bool * bool) g s r,
    (eval (Add_forward binary_broadcast x y) = Ok (s, r) ->
     eval (Add_backward ng s g) =
       Ok ((if fst ng then Some (BReduce "out += a" g (BFresh (shape x)) None)
            else None),
           (if snd ng then Some (BReduce "out += a" g (BFresh (shape y)) None)
            else None))) /\
    (eval (Sub_forward binary_broadcast x y) = Ok (s, r) ->
     eval (Sub_backward ng s g) =
       Ok ((if fst ng then Some (BReduce "out += a" g (BFresh (shape x)) None)
            else None),
           (if snd ng then
              Some (BReduce "out += a" (BUnary "-a" g (BFresh (shape g)))
                      (BFresh (shape y)) None)
            else None))).
Proof.
  intros bb x y [n0 n1] g s r; split; intro H;
    unfold Add_forward, Sub_forward, binary_forward in H; step_M;
    injection H as <- <-; destruct n0, n1; reflexivity.
Qed.

Lemma add_sub_backward_rules_witness :
  let bb := fun a (_ : list Z) => Ok a in
  let x := BInput "x" [2; 3] in
  let y := BInput "y" [2; 3] in
  eval (Add_forward bb x y) = Ok (([2; 3], [2; 3]), BBinary "a+b" x y (BFresh [2; 3])) /\
  eval (Add_backward (true, true) ([2; 3], [2; 3]) (BInput "g" [2; 3])) =
    Ok (Some (BReduce "out += a" (BInput "g" [2; 3]) (BFresh [2; 3]) None),
        Some (BReduce "out += a" (BInput "g" [2; 3]) (BFresh [2; 3]) None)).
Proof.
  intros bb x y; split; [reflexivity |].
  exact (proj1 (add_sub_backward_rules bb x y (true, true) (BInput "g" [2; 3])
                  ([2; 3], [2; 3]) (BBinary "a+b" x y (BFresh [2; 3]))) eq_refl).
Defined.

(** C2: the forward of Add, Sub, Mul and Pow returns a buffer whose shape
    is [binary_broadcast(x.shape, y.shape)] (and raises exactly when
    [binary_broadcast] does). *)
Theorem binary_forward_shape :
  forall binary_broadcast x y,
    result_map shape (eval (forward_output binary_broadcast (FAdd x y)))
      = binary_broadcast (shape x) (shape y) /\
    result_map shape (eval (forward_output binary_broadcast (FSub x y)))
      = binary_broadcast (shape x) (shape y) /\
    result_map shape (eval (forward_output binary_broadcast (FMul x y)))
      = binary_broadcast (shape x) (shape y) /\
    result_map shape (eval (forward_output binary_broadcast (FPow x y)))
      = binary_broadcast (shape x) (shape y).
Proof.
  intros bb x y; cbn;
    unfold Add_forward, Sub_forward, Mul_forward, Pow_forward, binary_forward;
    repeat autounfold with ops; cbn;
    destruct (bb (shape x) (shape y)); repeat split.
Qed.

(** C9: with the default [axis=None], Sum.forward and Max.forward raise
    [TypeError] (from [list(None)] in [reduce_shape]) and leave the trace as
    it was: no device primitive runs. *)
Theorem reduce_axis_none_raises :
  forall x tr,
    Sum.forward x AxNone tr = (Err TypeError, tr) /\
    Max.forward x AxNone tr = (Err TypeError, tr).
Proof. intros x tr; split; reflexivity. Qed.

(** C3, as stated, fails at a zero stride: the output size
    [(iy - (H - ys)) // ys] is computed first and raises
    [ZeroDivisionError], so no buffer is returned although the channel
    conditions hold. *)
Lemma conv2d_zero_stride_raises :
  eval (Conv2D.forward {| stride := SInt 0; groups := 1 |}
          (BInput "x" [1; 3; 5; 5]) (BInput "w" [2; 3; 3; 3]))
  = Err ZeroDivisionError.
Proof. reflexivity. Qed.

(** C3 (amended): for [x] of shape [(bs, cin_, iy, ix)], [w] of shape
    [(cout, cin, H, W)], nonzero [groups] with [cin * groups = cin_] and
    [cout % groups = 0], and a stride that is the int [s] (promoted to
    [(s, s)]) or the pair [(ys, xs)] with nonzero components,
    Conv2D.forward returns a buffer of shape [(bs, cout, oy, ox)] with
    [oy = (iy - (H - ys)) // ys] and [ox = (ix - (W - xs)) // xs], and
    leaves [ctx.stride] as the pair [(ys, xs)].  For such [x] and [w] and
    any [groups], a zero stride component raises [ZeroDivisionError]
    before any primitive runs. *)
Theorem conv2d_forward_shape :
  (forall st g x w bs cin_ iy ix cout cin H W ys xs,
    shape x = [bs; cin_; iy; ix] ->
    shape w = [cout; cin; H; W] ->
    g <> 0 -> cin * g = cin_ -> cout mod g = 0 ->
    (st = SInt ys /\ xs = ys) \/ st = STuple [ys; xs] ->
    ys <> 0 -> xs <> 0 ->
    exists r,
      eval (Conv2D.forward {| stride := st; groups := g |} x w)
        = Ok (({| stride := STuple [ys; xs]; groups := g |}, (x, w)), r) /\
      shape r = [bs; cout; (iy - (H - ys)) / ys; (ix - (W - xs)) / xs]) /\
  (forall st g x w bs cin_ iy ix cout cin H W ys xs tr,
    shape x = [bs; cin_; iy; ix] ->
    shape w = [cout; cin; H; W] ->
    (st = SInt ys /\ xs = ys) \/ st = STuple [ys; xs] ->
    ys = 0 \/ xs = 0 ->
    Conv2D.forward {| stride := st; groups := g |} x w tr
      = (Err ZeroDivisionError, tr)).
Proof.
  split.
  - intros st g x w bs cin_ iy ix cout cin H W ys xs Hx Hw Hg Hc Hm Hs Hys Hxs.
    assert (Hst : promote_stride st = STuple [ys; xs])
      by (destruct Hs as [[-> ->] | ->]; reflexivity).
    unfold Conv2D.forward; cbn [stride groups]; rewrite Hst, Hx, Hw.
    repeat autounfold with ops; unfold py_floordiv, py_mod; cbn.
    apply Z.eqb_neq in Hg, Hys, Hxs.
    rewrite Hg, Hys, Hxs, Hc, Z.eqb_refl, Hm.
    eexists; split; reflexivity.
  - intros st g x w bs cin_ iy ix cout cin H W ys xs tr Hx Hw Hs Hz.
    assert (Hst : promote_stride st = STuple [ys; xs])
      by (destruct Hs as [[-> ->] | ->]; reflexivity).
    unfold Conv2D.forward; cbn [stride groups]; rewrite Hst, Hx, Hw.
    repeat autounfold with ops; unfold py_floordiv; cbn.
    destruct (Z.eqb_spec ys 0) as [-> | Hys]; [reflexivity |].
    destruct Hz as [Hz | ->]; [contradiction | reflexivity].
Qed.

Lemma conv2d_forward_shape_witness :
  (exists r,
    eval (Conv2D.forward {| stride := SInt 2; groups := 1 |}
            (BInput "x" [1; 3; 7; 7]) (BInput "w" [4; 3; 3; 3]))
      = Ok (({| stride := STuple [2; 2]; groups := 1 |},
              (BInput "x" [1; 3; 7; 7], BInput "w" [4; 3; 3; 3])), r) /\
    shape r = [1; 4; (7 - (3 - 2)) / 2; (7 - (3 - 2)) / 2]) /\
  Conv2D.forward {| stride := STuple [1; 0]; groups := 5 |}
    (BInput "x" [1; 3; 7; 7]) (BInput "w" [4; 3; 3; 3]) []
    = (Err ZeroDivisionError, []).
Proof.
  destruct conv2d_forward_shape as [Hok Hzero]; split.
  - apply (Hok (SInt 2) 1 (BInput "x" [1; 3; 7; 7])
             (BInput "w" [4; 3; 3; 3]) 1 3 7 7 4 3 3 3 2 2);
      try reflexivity; try lia.
    left; split; reflexivity.
  - apply (Hzero (STuple [1; 0]) 5 (BInput "x" [1; 3; 7; 7])
             (BInput "w" [4; 3; 3; 3]) 1 3 7 7 4 3 3 3 1 0);
      [reflexivity | reflexivity | right; reflexivity | right; reflexivity].
Defined.

(** C4, as stated, fails: Conv2D.forward raises its own [Exception] when
    the input channels do not match the weights ([cin * groups != cin_]). *)
Lemma conv2d_forward_raises_on_mismatch :
  run (Conv2D.forward {| stride := SInt 1; groups := 1 |}
         (BInput "x" [1; 3; 5; 5]) (BInput "w" [2; 4; 3; 3]))
  = (Err (Exception conv_mismatch_msg), []).
Proof. reflexivity. Qed.

(** C4 (amended): the forwards have explicit error paths of their own,
    each of which aborts the call before any device primitive runs (the
    trace is left as it was): Conv2D.forward raises [Exception] when
    [cin * groups != cin_] and fails its assertion when
    [cout % groups != 0]; Matmul.forward fails its assertion when
    [input.shape[-1] != weight.shape[-2]]; Reshape.forward fails its
    assertion when [np.prod(x.shape) != np.prod(r.shape)] for the new
    shape, both products computed in [int64] with wrap-around. *)
Theorem forward_error_paths :
  (forall st g x w bs cin_ iy ix cout cin H W ys xs tr,
     shape x = [bs; cin_; iy; ix] -> shape w = [cout; cin; H; W] ->
     promote_stride st = STuple [ys; xs] -> ys <> 0 -> xs <> 0 ->
     cin * g <> cin_ ->
     Conv2D.forward {| stride := st; groups := g |} x w tr
       = (Err (Exception conv_mismatch_msg), tr)) /\
  (forall st g x w bs cin_ iy ix cout cin H W ys xs tr,
     shape x = [bs; cin_; iy; ix] -> shape w = [cout; cin; H; W] ->
     promote_stride st = STuple [ys; xs] -> ys <> 0 -> xs <> 0 ->
     cin * g = cin_ -> g <> 0 -> cout mod g <> 0 ->
     Conv2D.forward {| stride := st; groups := g |} x w tr
       = (Err AssertionError, tr)) /\
  (forall input weight a b tr,
     py_index (shape input) (-1) = Ok a -> py_index (shape weight) (-2) = Ok b ->
     a <> b ->
     Matmul.forward input weight tr = (Err AssertionError, tr)) /\
  (forall x sh tr,
     prod (shape x) <> prod (Reshape.new_shape (shape x) sh) ->
     Reshape.forward x sh tr = (Err AssertionError, tr)).
Proof.
  split; [| split; [| split]].
  - intros st g x w bs cin_ iy ix cout cin H W ys xs tr Hx Hw Hst Hys Hxs Hc.
    unfold Conv2D.forward; cbn [stride groups]; rewrite Hst, Hx, Hw.
    repeat autounfold with ops; unfold py_floordiv, py_mod; cbn.
    apply Z.eqb_neq in Hys, Hxs, Hc. rewrite Hys, Hxs, Hc. reflexivity.
  - intros st g x w bs cin_ iy ix cout cin H W ys xs tr Hx Hw Hst Hys Hxs Hc Hg Hm.
    unfold Conv2D.forward; cbn [stride groups]; rewrite Hst, Hx, Hw.
    repeat autounfold with ops; unfold py_floordiv, py_mod; cbn.
    apply Z.eqb_neq in Hys, Hxs, Hg, Hm. rewrite Hys, Hxs, Hc, Z.eqb_refl, Hg, Hm.
    reflexivity.
  - intros input weight a b tr Ha Hb Hab.
    unfold Matmul.forward; repeat autounfold with ops; cbn.
    rewrite Ha, Hb. apply Z.eqb_neq in Hab. rewrite Hab. reflexivity.
  - intros x sh tr Hp.
    unfold Reshape.forward; repeat autounfold with ops; cbn [shape].
    apply Z.eqb_neq in Hp. rewrite Hp. reflexivity.
Qed.

Lemma forward_error_paths_witness :
  Conv2D.forward {| stride := SInt 1; groups := 1 |}
    (BInput "x" [1; 3; 5; 5]) (BInput "w" [2; 4; 3; 3]) []
    = (Err (Exception conv_mismatch_msg), []) /\
  Matmul.forward (BInput "a" [2; 3]) (BInput "b" [4; 5]) []
    = (Err AssertionError, []) /\
  Reshape.forward (BInput "x" [2; 3]) [4] [] = (Err AssertionError, []).
Proof.
  destruct forward_error_paths as [Hconv [_ [Hmm Hre]]].
  split; [| split].
  - apply (Hconv (SInt 1) 1 _ _ 1 3 5 5 2 4 3 3 1 1); try reflexivity; lia.
  - apply (Hmm _ _ 3 4); try reflexivity; lia.
  - apply Hre. vm_compute. discriminate.
Defined.

(** C5, as stated, fails: Reshape.forward returns [Buffer(shape, hostbuf=x)],
    a view of [x] made without any device primitive. *)
Lemma reshape_forward_no_primitive :
  run (output (Reshape.forward (BInput "x" [2; 3]) [3; -1]))
    = (Ok (BView [3; 2] (BInput "x" [2; 3])), []) /\
  produced_by (BView [3; 2] (BInput "x" [2; 3])) = None.
Proof. split; reflexivity. Qed.

(** C5 (amended): every operator's forward except Reshape's returns the
    output buffer of exactly one device primitive, invoked once; Reshape's
    forward invokes no primitive and returns a view [Buffer(shape,
    hostbuf=x)] that shares [x]'s storage. *)
Theorem forward_output_by_primitive :
  forall binary_broadcast c tr r tr',
    forward_output binary_broadcast c tr = (Ok r, tr') ->
    match c with
    | FReshape x sh => r = BView (Reshape.new_shape (shape x) sh) x /\ tr' = tr
    | _ => exists p, produced_by r = Some p /\ tr' = tr ++ [p]
    end.
Proof.
  intros bb c tr r tr' H.
  destruct c; cbn in H;
    unfold UnaryOp.forward, Sum.forward, Max.forward, Add_forward, Sub_forward,
      Mul_forward, Pow_forward, binary_forward, Reshape.forward,
      Transpose.forward, Slice.forward, Matmul.forward, Conv2D.forward in H;
    step_M; injection H as <- <-;
    first [eexists; split; reflexivity | split; reflexivity].
Qed.

Lemma forward_output_by_primitive_witness :
  exists p,
    produced_by (BUnary ReLU_fop (BInput "x" [2]) (BFresh [2])) = Some p /\
    [P_unary_op] = [] ++ [p].
Proof.
  exact (forward_output_by_primitive (fun a _ => Ok a) (FReLU (BInput "x" [2])) []
           (BUnary ReLU_fop (BInput "x" [2]) (BFresh [2])) [P_unary_op] eq_refl).
Defined.

(** ** Reduction shapes *)

(** Dimension [k] of an [n]-dimensional shape is listed in [axis] when
    [axis] holds [k] or its negative alias [k - n]. *)
Definition listed (n : Z) (axis : list Z) (k : Z) : bool :=
  existsb (fun a => (a =? k) || (a + n =? k)) axis.

Definition axes_in_range (n : Z) (axis : list Z) : bool :=
  forallb (fun a => (- n <=? a) && (a <? n)) axis.

Lemma existsb_norm_listed :
  forall n l k, 0 <= k < n -> axes_in_range n l = true ->
    existsb (fun a => (if a <? 0 then a + n else a) =? k) l = listed n l k.
Proof.
  intros n l k Hk; unfold axes_in_range, listed; induction l as [| a l IH];
    cbn; [reflexivity |].
  intros Hr; apply andb_prop in Hr as [Ha Hl]; apply andb_prop in Ha as [Ha1 Ha2].
  apply Z.leb_le in Ha1; apply Z.ltb_lt in Ha2.
  rewrite (IH Hl); f_equal.
  destruct (Z.ltb_spec a 0);
    destruct (Z.eqb_spec a k), (Z.eqb_spec (a + n) k); cbn; lia.
Qed.

Lemma reduce_shape_in_range :
  forall sh l,
    axes_in_range (Z.of_nat (List.length sh)) l = true ->
    exists o, reduce_shape sh (AxSeq l) = Ok o /\
      List.length o = List.length sh /\
      forall k, (k < List.length sh)%nat ->
        nth k o 0 = if listed (Z.of_nat (List.length sh)) l (Z.of_nat k) then 1
                    else nth k sh 0.
Proof.
  intros sh l Hr; unfold reduce_shape.
  unfold axes_in_range in Hr; rewrite Hr.
  eexists; split; [reflexivity | split].
  - rewrite length_map, length_combine, length_map, length_seq; lia.
  - intros k Hk.
    set (f := fun '(k0, s) =>
                if existsb (fun a => (if a <? 0 then a + Z.of_nat (List.length sh)
                                      else a) =? k0) l then 1 else s).
    rewrite (nth_indep _ 0 (f (0, 0)))
      by (rewrite length_map, length_combine, length_map, length_seq; lia).
    rewrite map_nth, combine_nth by (rewrite length_map, length_seq; reflexivity).
    rewrite (nth_indep _ 0 (Z.of_nat 0)) by (rewrite length_map, length_seq; lia).
    rewrite map_nth, seq_nth by lia; cbn [Nat.add f].
    rewrite existsb_norm_listed by (unfold axes_in_range; auto; lia).
    reflexivity.
Qed.

(** C6, as stated, fails for a non-None axis that is not a sequence: with
    the int [axis=1], [list(axis)] raises [TypeError]. *)
Lemma sum_int_axis_raises :
  eval (Sum.forward (BInput "x" [2; 3]) (AxInt 1)) = Err TypeError.
Proof. reflexivity. Qed.

(** C6 (amended): for an [n]-dimensional input and an axis given as a
    sequence of indices in [-n, n), Sum.forward and Max.forward return a
    buffer of rank [n] whose dimension [k] is 1 when [k] (or [k - n]) is
    listed in the axis and the input's dimension [k] otherwise.  An int
    axis raises [TypeError]; an index outside [-n, n) raises
    [IndexError]. *)
Theorem reduce_forward_shape :
  (forall x a,
     eval (Sum.forward x (AxInt a)) = Err TypeError /\
     eval (Max.forward x (AxInt a)) = Err TypeError) /\
  (forall x l,
     axes_in_range (Z.of_nat (List.length (shape x))) l = false ->
     eval (Sum.forward x (AxSeq l)) = Err IndexError /\
     eval (Max.forward x (AxSeq l)) = Err IndexError) /\
  (forall x l,
     axes_in_range (Z.of_nat (List.length (shape x))) l = true ->
     exists rs rm,
       eval (output (Sum.forward x (AxSeq l))) = Ok rs /\
       eval (output (Max.forward x (AxSeq l))) = Ok rm /\
       shape rm = shape rs /\
       List.length (shape rs) = List.length (shape x) /\
       forall k, (k < List.length (shape x))%nat ->
         nth k (shape rs) 0 =
           if listed (Z.of_nat (List.length (shape x))) l (Z.of_nat k) then 1
           else nth k (shape x) 0).
Proof.
  split; [| split].
  - intros x a; split; reflexivity.
  - intros x l Hr; unfold Sum.forward, Max.forward; repeat autounfold with ops;
      cbn; unfold axes_in_range in Hr; rewrite Hr; split; reflexivity.
  - intros x l Hr.
    destruct (reduce_shape_in_range (shape x) l Hr) as (o & Ho & Hlen & Hnth).
    unfold Sum.forward, Max.forward; repeat autounfold with ops.
    rewrite Ho; cbn.
    do 2 eexists; split; [reflexivity | split; [reflexivity |]].
    cbn; split; [reflexivity | split; assumption].
Qed.

Lemma reduce_forward_shape_witness :
  exists rs rm,
    eval (output (Sum.forward (BInput "x" [2; 3; 4]) (AxSeq [-1; 0]))) = Ok rs /\
    eval (output (Max.forward (BInput "x" [2; 3; 4]) (AxSeq [-1; 0]))) = Ok rm /\
    shape rm = shape rs /\
    List.length (shape rs) = 3%nat /\
    forall k, (k < 3)%nat ->
      nth k (shape rs) 0 =
        if listed 3 [-1; 0] (Z.of_nat k) then 1 else nth k [2; 3; 4] 0.
Proof.
  exact (proj2 (proj2 reduce_forward_shape) (BInput "x" [2; 3; 4]) [-1; 0] eq_refl).
Defined.

(** ** Python indexing facts *)

Lemma py_index_neg_ok :
  forall A (l : list A) i,
    - Z.of_nat (List.length l) <= i < 0 -> exists a, py_index l i = Ok a.
Proof.
  intros A l i Hi; unfold py_index.
  rewrite (proj2 (Z.ltb_lt i 0)) by lia.
  rewrite (proj2 (Z.ltb_ge _ 0)) by lia.
  destruct (nth_error l _) eqn:E; eauto.
  apply nth_error_None in E; lia.
Qed.

Lemma py_index_neg_bound :
  forall A (l : list A) i a,
    py_index l i = Ok a -> i < 0 -> - Z.of_nat (List.length l) <= i.
Proof.
  intros A l i a H Hi; unfold py_index in H.
  rewrite (proj2 (Z.ltb_lt i 0)) in H by lia.
  destruct (i + Z.of_nat (List.length l) <? 0) eqn:E; [discriminate |].
  apply Z.ltb_ge in E; lia.
Qed.

(** C7: when [input.shape[-1] == weight.shape[-2]], Matmul.forward returns
    [matmul(input, weight)] into a buffer of shape
    [input.shape[:-1] + [weight.shape[-1]]], and Matmul.backward returns
    [matmul(grad_output, weight, transpose_b=True)] into a buffer of
    [input]'s shape and [matmul(input, grad_output, transpose_a=True)] into
    a buffer of [weight]'s shape (each when its gradient is needed). *)
Theorem matmul_forward_backward :
  forall input weight k ng g,
    py_index (shape input) (-1) = Ok k ->
    py_index (shape weight) (-2) = Ok k ->
    exists n,
      py_index (shape weight) (-1) = Ok n /\
      eval (Matmul.forward input weight)
        = Ok ((input, weight),
              BMatmul input weight
                (BFresh (firstn (pred (List.length (shape input))) (shape input) ++ [n]))
                false false) /\
      eval (Matmul.backward ng (input, weight) g)
        = Ok ((if fst ng then Some (BMatmul g weight (BFresh (shape input)) false true)
               else None),
              (if snd ng then Some (BMatmul input g (BFresh (shape weight)) true false)
               else None)).
Proof.
  intros input weight k [n0 n1] g Hi Hw.
  assert (Hn : exists n, py_index (shape weight) (-1) = Ok n).
  { apply py_index_neg_ok. apply py_index_neg_bound in Hw; lia. }
  destruct Hn as [n Hn]; exists n; split; [assumption | split].
  - unfold Matmul.forward; repeat autounfold with ops; rewrite Hi, Hw; cbn.
    rewrite Z.eqb_refl, Hn; reflexivity.
  - destruct n0, n1; reflexivity.
Qed.

Lemma matmul_forward_backward_witness :
  exists n,
    py_index [4; 5] (-1) = Ok n /\
    eval (Matmul.forward (BInput "a" [2; 3; 4]) (BInput "b" [4; 5]))
      = Ok ((BInput "a" [2; 3; 4], BInput "b" [4; 5]),
            BMatmul (BInput "a" [2; 3; 4]) (BInput "b" [4; 5])
              (BFresh (firstn 2 [2; 3; 4] ++ [n])) false false) /\
    eval (Matmul.backward (true, false) (BInput "a" [2; 3; 4], BInput "b" [4; 5])
            (BInput "g" [2; 3; 5]))
      = Ok (Some (BMatmul (BInput "g" [2; 3; 5]) (BInput "b" [4; 5])
                    (BFresh [2; 3; 4]) false true), None).
Proof.
  exact (matmul_forward_backward (BInput "a" [2; 3; 4]) (BInput "b" [4; 5]) 4
           (true, false) (BInput "g" [2; 3; 5]) eq_refl eq_refl).
Defined.

(** ** [np.argsort] of a permutation is its inverse *)

Definition zseq (k : nat) : list Z := map Z.of_nat (seq 0 k).

Fixpoint nodupb (l : list Z) : bool :=
  match l with
  | [] => true
  | a :: l' => negb (existsb (Z.eqb a) l') && nodupb l'
  end.

(** [order] is a permutation of the axes [0 .. n-1]. *)
Definition is_perm (order : list Z) (n : nat) : bool :=
  Nat.eqb (List.length order) n &&
  forallb (fun a => (0 <=? a) && (a <? Z.of_nat n)) order &&
  nodupb order.

Lemma nodupb_NoDup : forall l, nodupb l = true -> NoDup l.
Proof.
  induction l as [| a l IH]; cbn; intros H; constructor.
  - apply andb_prop in H as [H _]; apply negb_true_iff in H.
    intro Hin; rewrite (proj2 (existsb_exists _ _)) in H; [discriminate |].
    exists a; split; [assumption | apply Z.eqb_refl].
  - apply IH; apply andb_prop in H as [_ H]; exact H.
Qed.

Lemma In_zseq : forall k u, In u (zseq k) <-> 0 <= u < Z.of_nat k.
Proof.
  intros k u; unfold zseq; rewrite in_map_iff; split.
  - intros (m & <- & Hm); apply in_seq in Hm; lia.
  - intros Hu; exists (Z.to_nat u); split; [lia | apply in_seq; lia].
Qed.

Lemma NoDup_zseq : forall k, NoDup (zseq k).
Proof.
  intros k; apply NoDup_map_NoDup_ForallPairs; [| apply seq_NoDup].
  intros a b _ _; lia.
Qed.

Lemma length_zseq : forall k, List.length (zseq k) = k.
Proof. intros k; unfold zseq; rewrite length_map, length_seq; reflexivity. Qed.

Lemma nth_map_seq : forall (f : nat -> Z) k j, (j < k)%nat ->
  nth j (map f (seq 0 k)) 0 = f j.
Proof.
  intros f k j Hj.
  rewrite (nth_indep _ 0 (f 0%nat)) by (rewrite length_map, length_seq; exact Hj).
  rewrite map_nth, seq_nth by exact Hj; reflexivity.
Qed.

Section ArgsortInverse.
Variable order : list Z.
Hypothesis Hperm : is_perm order (List.length order) = true.

Let n := List.length order.

Lemma perm_NoDup : NoDup order.
Proof.
  unfold is_perm in Hperm; apply andb_prop in Hperm as [_ H].
  apply nodupb_NoDup; exact H.
Qed.

Lemma perm_In : forall u, In u order <-> 0 <= u < Z.of_nat n.
Proof.
  assert (Hr : forall u, In u order -> 0 <= u < Z.of_nat n).
  { unfold is_perm in Hperm; apply andb_prop in Hperm as [H _].
    apply andb_prop in H as [_ H]; rewrite forallb_forall in H.
    intros u Hu; specialize (H u Hu); apply andb_prop in H as [H1 H2].
    apply Z.leb_le in H1; apply Z.ltb_lt in H2; lia. }
  intros u; split; [apply Hr |].
  intros Hu; apply In_zseq in Hu; revert u Hu.
  apply (NoDup_length_incl perm_NoDup).
  - rewrite length_zseq; lia.
  - intros u Hu; apply In_zseq, Hr, Hu.
Qed.

(** The elements below [v] are exactly [0 .. v-1]. *)
Lemma countb_lt : forall v, 0 <= v <= Z.of_nat n ->
  countb (fun u => u <? v) order = Z.to_nat v.
Proof.
  intros v Hv; unfold countb.
  rewrite <- (length_zseq (Z.to_nat v)).
  apply Permutation_length, NoDup_Permutation;
    [apply NoDup_filter, perm_NoDup | apply NoDup_zseq |].
  intros u; rewrite filter_In, perm_In, In_zseq, Z.ltb_lt; lia.
Qed.

Lemma countb_eq_prefix : forall i, (i < n)%nat ->
  countb (fun u => u =? nth i order 0) (firstn i order) = 0%nat.
Proof.
  intros i Hi; unfold countb.
  destruct (nth_split order 0 Hi) as (l1 & l2 & Hl & Hlen).
  set (v := nth i order 0) in *.
  assert (Hnd := perm_NoDup); rewrite Hl in Hnd; apply NoDup_remove_2 in Hnd.
  assert (Hpre : firstn i order = l1)
    by (rewrite Hl, <- Hlen, <- (Nat.add_0_r (List.length l1)), firstn_app_2;
        cbn; apply app_nil_r).
  rewrite Hpre.
  destruct (filter _ l1) as [| u l'] eqn:E; [reflexivity | exfalso].
  assert (Hu : In u (filter (fun u => u =? v) l1))
    by (rewrite E; left; reflexivity).
  apply filter_In in Hu as [Hu Heq]; apply Z.eqb_eq in Heq; subst u.
  apply Hnd, in_or_app; left; exact Hu.
Qed.

Lemma rank_value : forall i, (i < n)%nat ->
  rank order i = Z.to_nat (nth i order 0).
Proof.
  intros i Hi; unfold rank; cbv zeta.
  assert (Hin : 0 <= nth i order 0 < Z.of_nat n)
    by (apply perm_In, nth_In; exact Hi).
  rewrite countb_lt, countb_eq_prefix by (auto; lia); lia.
Qed.

(** [order[argsort(order)[j]] == j] *)
Lemma argsort_inverse : forall j, (j < n)%nat ->
  exists i, nth j (argsort order) 0 = Z.of_nat i /\ (i < n)%nat /\
            nth i order 0 = Z.of_nat j.
Proof.
  intros j Hj; unfold argsort; rewrite nth_map_seq by exact Hj.
  destruct (find _ _) as [i |] eqn:E.
  - apply find_some in E as [Hi Hr]; apply in_seq in Hi.
    apply Nat.eqb_eq in Hr; rewrite rank_value in Hr by (unfold n; lia).
    assert (Hin : 0 <= nth i order 0 < Z.of_nat n)
      by (apply perm_In, nth_In; unfold n; lia).
    exists i; split; [reflexivity | split; [unfold n; lia | lia]].
  - exfalso.
    assert (Hj' : In (Z.of_nat j) order) by (apply perm_In; lia).
    destruct (In_nth _ _ 0 Hj') as (i & Hi & Hv).
    assert (Hf := find_none _ _ E i (proj2 (in_seq _ _ _) (conj (Nat.le_0_l i) Hi))).
    apply Nat.eqb_neq in Hf; apply Hf.
    rewrite rank_value, Hv by exact Hi; lia.
Qed.
End ArgsortInverse.

Lemma nth_map_Z : forall (h : Z -> Z) l j, (j < List.length l)%nat ->
  nth j (map h l) 0 = h (nth j l 0).
Proof.
  intros h l j Hj.
  rewrite (nth_indep _ 0 (h 0)) by (rewrite length_map; exact Hj).
  apply map_nth.
Qed.

Lemma map_result_py_index : forall (l idx : list Z),
  (forall i, In i idx -> 0 <= i < Z.of_nat (List.length l)) ->
  map_result (py_index l) idx = Ok (map (fun i => nth (Z.to_nat i) l 0) idx).
Proof.
  intros l idx; induction idx as [| i idx IH]; intros Hr; [reflexivity |].
  assert (Hi : 0 <= i < Z.of_nat (List.length l)) by (apply Hr; left; reflexivity).
  assert (Hget : py_index l i = Ok (nth (Z.to_nat i) l 0)).
  { unfold py_index.
    rewrite (proj2 (Z.ltb_ge i 0)) by lia; rewrite (proj2 (Z.ltb_ge i 0)) by lia.
    rewrite (nth_error_nth' l 0) by lia; reflexivity. }
  cbn [map_result]; rewrite Hget.
  rewrite IH by (intros j Hj; apply Hr; right; exact Hj); reflexivity.
Qed.

Lemma length_argsort : forall l, List.length (argsort l) = List.length l.
Proof. intros l; unfold argsort; rewrite length_map, length_seq; reflexivity. Qed.

(** C8: for a permutation [order] of the axes of [x], [argsort(order)] is
    the inverse permutation ([order[argsort(order)[j]] == j]), and
    Transpose.backward, given a gradient of the forward output's shape,
    returns a buffer of exactly [x]'s shape. *)
Theorem transpose_backward_restores_shape :
  forall x order,
    is_perm order (List.length (shape x)) = true ->
    (forall j, (j < List.length order)%nat ->
       exists i, nth j (argsort order) 0 = Z.of_nat i /\ nth i order 0 = Z.of_nat j) /\
    exists y,
      eval (Transpose.forward x order) = Ok (order, y) /\
      forall g, shape g = shape y ->
        exists r, eval (Transpose.backward order g) = Ok r /\ shape r = shape x.
Proof.
  intros x order Hp.
  assert (Hlen : List.length order = List.length (shape x))
    by (unfold is_perm in Hp; apply andb_prop in Hp as [Hp _];
        apply andb_prop in Hp as [Hp _]; apply Nat.eqb_eq, Hp).
  assert (Hp' : is_perm order (List.length order) = true) by (rewrite Hlen; exact Hp).
  assert (Hinv := argsort_inverse order Hp').
  split.
  { intros j Hj; destruct (Hinv j Hj) as (i & H1 & _ & H2); eauto. }
  assert (Hord : forall i, In i order -> 0 <= i < Z.of_nat (List.length (shape x)))
    by (intros i Hi; rewrite <- Hlen; apply (perm_In order Hp'), Hi).
  set (sy := map (fun i => nth (Z.to_nat i) (shape x) 0) order).
  exists (BPerm x order (BFresh sy)); split.
  { unfold Transpose.forward; repeat autounfold with ops.
    rewrite map_result_py_index by exact Hord; reflexivity. }
  intros g Hg.
  assert (Hsy : List.length sy = List.length order) by apply length_map.
  assert (Hargs : forall a, In a (argsort order) ->
            0 <= a < Z.of_nat (List.length (shape g))).
  { intros a Ha; destruct (In_nth _ _ 0 Ha) as (j & Hj & <-).
    rewrite length_argsort in Hj; destruct (Hinv j Hj) as (i & -> & Hi & _).
    rewrite Hg; cbn [shape]; lia. }
  eexists; split.
  { unfold Transpose.backward; repeat autounfold with ops.
    rewrite map_result_py_index by exact Hargs; reflexivity. }
  cbn [shape]; rewrite Hg; cbn [shape].
  apply nth_ext with (d := 0) (d' := 0);
    [rewrite length_map, length_argsort; exact Hlen |].
  intros j Hj; rewrite length_map, length_argsort in Hj.
  rewrite nth_map_Z by (rewrite length_argsort; exact Hj).
  destruct (Hinv j Hj) as (i & -> & Hi & Hv).
  rewrite Nat2Z.id; unfold sy; rewrite nth_map_Z by exact Hi.
  rewrite Hv, Nat2Z.id; reflexivity.
Qed.

Lemma transpose_backward_restores_shape_witness :
  (forall j, (j < 3)%nat ->
     exists i, nth j (argsort [2; 0; 1]) 0 = Z.of_nat i /\
               nth i [2; 0; 1] 0 = Z.of_nat j) /\
  exists y,
    eval (Transpose.forward (BInput "x" [4; 5; 6]) [2; 0; 1]) = Ok ([2; 0; 1], y) /\
    forall g, shape g = shape y ->
      exists r, eval (Transpose.backward [2; 0; 1] g) = Ok r /\ shape r = [4; 5; 6].
Proof.
  exact (transpose_backward_restores_shape (BInput "x" [4; 5; 6]) [2; 0; 1] eq_refl).
Defined.

(** ** Gradient slots of the two-input operators *)

(** Slot [i] of a backward result: [None] exactly when input [i] needs no
    gradient, and otherwise a buffer of input [i]'s shape. *)
Definition grad_ok (needed : bool) (input_shape : list Z) (o : option buf) : Prop :=
  match o with
  | None => needed = false
  | Some b => needed = true /\ shape b = input_shape
  end.

Lemma unpack4_ok : forall l a b c d, unpack4 l = Ok (a, b, c, d) -> l = [a; b; c; d].
Proof.
  intros l a b c d; destruct l as [| ? [| ? [| ? [| ? [|]]]]]; cbn; congruence.
Qed.

Ltac close_grads :=
  repeat match goal with
         | E : unpack4 _ = Ok (_, _, _, _) |- _ => apply unpack4_ok in E
         end;
  first [ eexists; eexists; split; [reflexivity |]; cbn; split; auto; congruence
        | idtac ].

Lemma unpack_stride_promote : forall st ys xs,
  unpack_stride (promote_stride st) = Ok (ys, xs) -> promote_stride st = STuple [ys; xs].
Proof.
  intros [s | l] ys xs; cbn; [congruence |].
  destruct l as [| ? [| ? [|]]]; cbn; congruence.
Qed.

Lemma py_floordiv_ok : forall a b c, py_floordiv a b = Ok c -> b <> 0 /\ c = a / b.
Proof.
  unfold py_floordiv; intros a b c H.
  destruct (Z.eqb_spec b 0); [discriminate | injection H as <-; auto].
Qed.

Lemma py_mod_ok : forall a b c, py_mod a b = Ok c -> b <> 0 /\ c = a mod b.
Proof.
  unfold py_mod; intros a b c H.
  destruct (Z.eqb_spec b 0); [discriminate | injection H as <-; auto].
Qed.

(** What a successful Conv2D.forward tells about its inputs. *)
Lemma conv2d_forward_ok_inv : forall ctx x w ctx' s r,
  eval (Conv2D.forward ctx x w) = Ok ((ctx', s), r) ->
  exists bs cin_ iy ix cout cin H W ys xs,
    shape x = [bs; cin_; iy; ix] /\ shape w = [cout; cin; H; W] /\
    ctx' = {| stride := STuple [ys; xs]; groups := groups ctx |} /\
    ys <> 0 /\ xs <> 0 /\ cin * groups ctx = cin_ /\ groups ctx <> 0 /\
    cout mod groups ctx = 0 /\ s = (x, w) /\
    shape r = [bs; cout; (iy - (H - ys)) / ys; (ix - (W - xs)) / xs].
Proof.
  intros ctx x w ctx' s r Hf.
  unfold Conv2D.forward in Hf; cbn [stride groups] in Hf.
  step_M.
  injection Hf as <- <- <-.
  repeat match goal with
         | E : unpack4 _ = Ok (_, _, _, _) |- _ => apply unpack4_ok in E
         | E : unpack_stride _ = Ok _ |- _ => apply unpack_stride_promote in E
         | E : py_floordiv _ _ = Ok _ |- _ => apply py_floordiv_ok in E as [? ->]
         | E : py_mod _ _ = Ok _ |- _ => apply py_mod_ok in E as [? ->]
         | E : (_ =? _) = true |- _ => apply Z.eqb_eq in E
         end.
  do 10 eexists; repeat split; try eassumption; congruence.
Qed.

(** C10: for Add, Sub, Mul, Pow, Matmul and Conv2D, after a successful
    [forward(x, y)], [backward] returns a pair whose slot [i] is [None]
    exactly when [ctx.needs_input_grad[i]] is false and is otherwise a
    buffer of input [i]'s shape (for Conv2D, given a gradient of the
    forward output's shape). *)
Theorem backward_grad_slots :
  (forall bb x y s r ng g, eval (Add_forward bb x y) = Ok (s, r) ->
     exists o0 o1, eval (Add_backward ng s g) = Ok (o0, o1) /\
       grad_ok (fst ng) (shape x) o0 /\ grad_ok (snd ng) (shape y) o1) /\
  (forall bb x y s r ng g, eval (Sub_forward bb x y) = Ok (s, r) ->
     exists o0 o1, eval (Sub_backward ng s g) = Ok (o0, o1) /\
       grad_ok (fst ng) (shape x) o0 /\ grad_ok (snd ng) (shape y) o1) /\
  (forall bb x y s r ng g, eval (Mul_forward bb x y) = Ok (s, r) ->
     exists o0 o1, eval (Mul_backward ng s g) = Ok (o0, o1) /\
       grad_ok (fst ng) (shape x) o0 /\ grad_ok (snd ng) (shape y) o1) /\
  (forall bb x y s r ng g, eval (Pow_forward bb x y) = Ok (s, r) ->
     exists o0 o1, eval (Pow_backward ng s g) = Ok (o0, o1) /\
       grad_ok (fst ng) (shape x) o0 /\ grad_ok (snd ng) (shape y) o1) /\
  (forall x y s r ng g, eval (Matmul.forward x y) = Ok (s, r) ->
     exists o0 o1, eval (Matmul.backward ng s g) = Ok (o0, o1) /\
       grad_ok (fst ng) (shape x) o0 /\ grad_ok (snd ng) (shape y) o1) /\
  (forall ctx x y ctx' s r ng g,
     eval (Conv2D.forward ctx x y) = Ok ((ctx', s), r) -> shape g = shape r ->
     exists o0 o1, eval (Conv2D.backward ng ctx' s g) = Ok (o0, o1) /\
       grad_ok (fst ng) (shape x) o0 /\ grad_ok (snd ng) (shape y) o1).
Proof.
  repeat split.
  - intros bb x y s r [n0 n1] g H; unfold Add_forward, binary_forward in H;
      step_M; injection H as <- <-; destruct n0, n1; close_grads.
  - intros bb x y s r [n0 n1] g H; unfold Sub_forward, binary_forward in H;
      step_M; injection H as <- <-; destruct n0, n1; close_grads.
  - intros bb x y s r [n0 n1] g H; unfold Mul_forward, binary_forward in H;
      step_M; injection H as <- <-; destruct n0, n1; close_grads.
  - intros bb x y s r [n0 n1] g H; unfold Pow_forward, binary_forward in H;
      step_M; injection H as <- <-; destruct n0, n1; close_grads.
  - intros x y s r [n0 n1] g H; unfold Matmul.forward in H;
      step_M; injection H as <- <-; destruct n0, n1; close_grads.
  - intros ctx x y ctx' s r [n0 n1] g H Hg.
    apply conv2d_forward_ok_inv in H
      as (bs & cin_ & iy & ix & cout & cin & H & W & ys & xs &
          Hx & Hy & -> & Hys & Hxs & Hc & Hgr & Hm & -> & Hr).
    rewrite Hr in Hg.
    unfold Conv2D.backward; repeat autounfold with ops.
    rewrite Hg, Hx, Hy; cbn; unfold py_floordiv, py_mod.
    apply Z.eqb_neq in Hys, Hxs, Hgr.
    rewrite Hys, Hxs, Hgr, Hc, Z.eqb_refl, Hm; cbn.
    destruct n0, n1; close_grads.
Qed.

Lemma backward_grad_slots_witness :
  exists o0 o1,
    eval (Conv2D.backward (true, false) {| stride := STuple [1; 1]; groups := 1 |}
            (BInput "x" [1; 3; 5; 5], BInput "w" [2; 3; 3; 3])
            (BInput "g" [1; 2; 3; 3])) = Ok (o0, o1) /\
    grad_ok true [1; 3; 5; 5] o0 /\ grad_ok false [2; 3; 3; 3] o1.
Proof.
  destruct backward_grad_slots as (_ & _ & _ & _ & _ & Hconv).
  exact (Hconv {| stride := SInt 1; groups := 1 |}
           (BInput "x" [1; 3; 5; 5]) (BInput "w" [2; 3; 3; 3])
           {| stride := STuple [1; 1]; groups := 1 |}
           (BInput "x" [1; 3; 5; 5], BInput "w" [2; 3; 3; 3])
           (BConv (BInput "x" [1; 3; 5; 5]) (BInput "w" [2; 3; 3; 3])
              (BFresh [1; 2; 3; 3]) [3; 3; 1; 2; 3; 3; 3; 5; 5; 1; 1; 1])
           (true, false) (BInput "g" [1; 2; 3; 3]) eq_refl eq_refl).
Defined.

(** ** Further properties of the operator layer *)

(** X1: a forward that raises has invoked no device primitive. *)
Theorem forward_error_no_primitive :
  forall binary_broadcast c tr e tr',
    forward_output binary_broadcast c tr = (Err e, tr') -> tr' = tr.
Proof.
  intros bb c tr e tr' H.
  destruct c; cbn in H;
    unfold UnaryOp.forward, Sum.forward, Max.forward, Add_forward, Sub_forward,
      Mul_forward, Pow_forward, binary_forward, Reshape.forward,
      Transpose.forward, Slice.forward, Matmul.forward, Conv2D.forward in H;
    step_M; congruence.
Qed.

Lemma forward_error_no_primitive_witness :
  forward_output (fun a _ => Ok a) (FSum (BInput "x" [2; 3]) AxNone) []
    = (Err TypeError, []) /\ [] = @nil prim.
Proof.
  split; [reflexivity |].
  exact (forward_error_no_primitive (fun a _ => Ok a)
           (FSum (BInput "x" [2; 3]) AxNone) [] TypeError [] eq_refl).
Defined.

Lemma zprod_app : forall l1 l2, zprod (l1 ++ l2) = zprod l1 * zprod l2.
Proof.
  unfold zprod; induction l1 as [| a l1 IH]; intros l2; cbn [app fold_right];
    [lia | rewrite IH; lia].
Qed.

Lemma zprod_cons : forall a l, zprod (a :: l) = a * zprod l.
Proof. reflexivity. Qed.

Lemma int64_wrap_small : forall z, - 2 ^ 63 <= z < 2 ^ 63 -> int64_wrap z = z.
Proof.
  intros z Hz; unfold int64_wrap; rewrite Z.mod_small by lia; lia.
Qed.

Lemma new_shape_no_wildcard : forall (c : Z) sh, ~ In (-1) sh ->
  map (fun s => if s =? -1 then c else s) sh = sh.
Proof.
  intros c sh Hn. rewrite <- (map_id sh) at 2; apply map_ext_in.
  intros s Hs; destruct (Z.eqb_spec s (-1)); [subst; contradiction | reflexivity].
Qed.



(** X3: a single [-1] entry is replaced by the element count [P] of [x]
    divided by the product [R] of the other entries.  When [P] and [R] fit
    in [int64] (so that numpy's products do not wrap) and [R > 0], the call
    returns that view when [R] divides [P] and fails its assertion
    otherwise. *)
Theorem reshape_infers_wildcard :
  forall x pre post tr,
    ~ In (-1) pre -> ~ In (-1) post ->
    0 < zprod pre * zprod post < 2 ^ 63 -> 0 <= zprod (shape x) < 2 ^ 63 ->
    Reshape.forward x (pre ++ -1 :: post) tr =
      ((if zprod (shape x) mod (zprod pre * zprod post) =? 0
        then Ok (shape x,
                 BView (pre ++ zprod (shape x) / (zprod pre * zprod post) :: post) x)
        else Err AssertionError), tr).
Proof.
  intros x pre post tr Hpre Hpost HR HP.
  set (R := zprod pre * zprod post) in *; set (P := zprod (shape x)) in *.
  assert (HQ : prod (pre ++ -1 :: post) = - R).
  { unfold prod; rewrite zprod_app, zprod_cons.
    rewrite int64_wrap_small; unfold R; lia. }
  assert (HPx : prod (shape x) = P) by (apply int64_wrap_small; lia).
  assert (HdR : 0 <= P / R <= P)
    by (split; [apply Z.div_pos; lia | apply Z.div_le_upper_bound; nia]).
  assert (Hns : Reshape.new_shape (shape x) (pre ++ -1 :: post)
                = pre ++ P / R :: post).
  { unfold Reshape.new_shape; rewrite HQ, HPx, map_app; cbn [map].
    rewrite Z.eqb_refl, (int64_wrap_small (- P)) by lia.
    rewrite Z.div_opp_opp by lia.
    rewrite int64_wrap_small by lia.
    rewrite !new_shape_no_wildcard by assumption; reflexivity. }
  unfold Reshape.forward; repeat autounfold with ops; cbn [shape]; rewrite Hns.
  assert (Hp : prod (pre ++ P / R :: post) = R * (P / R)).
  { unfold prod; rewrite zprod_app, zprod_cons.
    assert (HRd : 0 <= R * (P / R) <= P)
      by (split; [apply Z.mul_nonneg_nonneg; lia | apply Z.mul_div_le; lia]).
    rewrite int64_wrap_small; unfold R in *; lia. }
  rewrite Hp, HPx.
  assert (HR0 : R <> 0) by lia.
  destruct (Z.eqb_spec (P mod R) 0) as [Hm | Hm].
  - apply (Z.div_exact P R HR0) in Hm; rewrite <- Hm, Z.eqb_refl; reflexivity.
  - destruct (Z.eqb_spec P (R * (P / R))) as [He | He]; [| reflexivity].
    exfalso; apply Hm, (Z.div_exact P R HR0), He.
Qed.

Lemma reshape_infers_wildcard_witness :
  Reshape.forward (BInput "x" [2; 3; 4]) ([4] ++ -1 :: [2]) []
    = ((if zprod [2; 3; 4] mod (zprod [4] * zprod [2]) =? 0
        then Ok ([2; 3; 4],
                 BView ([4] ++ zprod [2; 3; 4] / (zprod [4] * zprod [2]) :: [2])
                   (BInput "x" [2; 3; 4]))
        else Err AssertionError), []).
Proof.
  apply (reshape_infers_wildcard (BInput "x" [2; 3; 4]) [4] [2] []);
    [cbn; intros [H | []]; discriminate | cbn; intros [H | []]; discriminate
    | cbn; lia | cbn; lia].
Defined.

Lemma py_index_nat : forall A (l : list A) (d : A) i, (i < List.length l)%nat ->
  py_index l (Z.of_nat i) = Ok (nth i l d).
Proof.
  intros A l d i Hi; unfold py_index.
  rewrite (proj2 (Z.ltb_ge (Z.of_nat i) 0)) by lia.
  rewrite (proj2 (Z.ltb_ge (Z.of_nat i) 0)) by lia.
  rewrite Nat2Z.id, (nth_error_nth' l d) by exact Hi; reflexivity.
Qed.

Lemma nth_map_any : forall A (f : A -> Z) l d j, (j < List.length l)%nat ->
  nth j (map f l) 0 = f (nth j l d).
Proof.
  intros A f l d j Hj.
  rewrite (nth_indep _ 0 (f d)) by (rewrite length_map; exact Hj).
  apply map_nth.
Qed.

Lemma map_result_ok : forall A B (f : A -> result B) (h : A -> B) l,
  (forall a, In a l -> f a = Ok (h a)) -> map_result f l = Ok (map h l).
Proof.
  intros A B f h l; induction l as [| a l IH]; intros Hf; [reflexivity |].
  cbn [map_result map]; rewrite (Hf a (or_introl eq_refl)).
  rewrite IH by (intros b Hb; apply Hf; right; exact Hb); reflexivity.
Qed.

(** X4: Slice.forward with one [(lo, hi)] pair per dimension returns a
    buffer of shape [hi - lo] per dimension, and Slice.backward, given a
    gradient of that shape, pads it back to a buffer of [x]'s shape. *)
Theorem slice_backward_restores_shape :
  forall x arg,
    List.length arg = List.length (shape x) ->
    exists r,
      eval (Slice.forward x (Some arg)) = Ok (shape x, r) /\
      shape r = map (fun y => snd y - fst y) arg /\
      forall g, shape g = shape r ->
        exists d, eval (Slice.backward (shape x) arg g) = Ok d /\ shape d = shape x.
Proof.
  intros x arg Hlen.
  eexists; split; [reflexivity | split; [reflexivity |]].
  intros g Hg; unfold Buffer in Hg; cbn [shape] in Hg.
  set (n := List.length arg) in *.
  set (h := fun ip : nat * (Z * Z) =>
              (0 - fst (snd ip),
               nth (fst ip) (shape g) 0 + (nth (fst ip) (shape x) 0 - snd (snd ip)))).
  assert (Hm : map_result (Slice.narg_entry (shape g) (shape x))
                 (combine (seq 0 n) arg) = Ok (map h (combine (seq 0 n) arg))).
  { apply map_result_ok; intros [i p] Hip.
    apply in_combine_l, in_seq in Hip.
    unfold Slice.narg_entry.
    rewrite !(py_index_nat _ _ 0)
      by (try rewrite Hg; try rewrite length_map; unfold n in *; lia).
    reflexivity. }
  eexists; split.
  { unfold Slice.backward; repeat autounfold with ops; fold n; rewrite Hm; reflexivity. }
  cbn [shape]; rewrite map_map.
  apply nth_ext with (d := 0) (d' := 0).
  { rewrite length_map, length_combine, length_seq; lia. }
  intros j Hj; rewrite length_map, length_combine, length_seq in Hj.
  rewrite (nth_map_any _ _ _ (0%nat, (0, 0)))
    by (rewrite length_combine, length_seq; exact Hj).
  rewrite combine_nth by (rewrite length_seq; reflexivity).
  rewrite seq_nth by lia; unfold h; cbn [fst snd Nat.add].
  rewrite Hg, (nth_map_any _ _ _ (0, 0)) by lia; cbn [fst snd]; lia.
Qed.

Lemma slice_backward_restores_shape_witness :
  exists r,
    eval (Slice.forward (BInput "x" [5; 6]) (Some [(1, 4); (0, 2)]))
      = Ok ([5; 6], r) /\
    shape r = [3; 2] /\
    forall g, shape g = shape r ->
      exists d, eval (Slice.backward [5; 6] [(1, 4); (0, 2)] g) = Ok d /\
                shape d = [5; 6].
Proof.
  exact (slice_backward_restores_shape (BInput "x" [5; 6]) [(1, 4); (0, 2)] eq_refl).
Defined.

(** X5: after a successful forward, the backward of Sum and of Max cannot
    raise and returns a gradient of the input's shape.  Sum.backward runs
    one [binary_op]; Max.backward runs [binary_op], [reduce_op] and two
    more [binary_op]s, and the sum it divides by has the shape of the
    forward's output, since it reduces over the same saved [axis]. *)
Theorem reduce_backward_after_forward :
  (forall x axis s r tr tr1 g,
     Sum.forward x axis tr = (Ok (s, r), tr1) ->
     exists d, Sum.backward s g tr1 = (Ok d, tr1 ++ [P_binary_op]) /\
               shape d = shape x) /\
  (forall x axis s r tr tr1 g,
     Max.forward x axis tr = (Ok (s, r), tr1) ->
     exists ret2 div,
       Max.backward s g tr1 =
         (Ok (BBinary "a*b" (BBinary "a/b" ret2 div ret2) g
                (BBinary "a/b" ret2 div ret2)),
          tr1 ++ [P_binary_op; P_reduce_op; P_binary_op; P_binary_op]) /\
       shape ret2 = shape x /\ shape div = shape r).
Proof.
  split.
  - intros x axis s r tr tr1 g H; unfold Sum.forward in H; step_M.
    injection H as <- <- <-.
    eexists; split; reflexivity.
  - intros x axis s r tr tr1 g H; unfold Max.forward in H; step_M.
    injection H as <- <- <-.
    unfold Max.backward; repeat autounfold with ops; cbn [shape]; rewrite E.
    do 2 eexists; split; [rewrite <- !app_assoc; reflexivity | split; reflexivity].
Qed.

Lemma reduce_backward_after_forward_witness :
  (exists d, Sum.backward [2; 3] (BInput "g" [2; 1]) [P_reduce_op]
               = (Ok d, [P_reduce_op; P_binary_op]) /\ shape d = [2; 3]) /\
  (exists ret2 div,
     Max.backward (BInput "x" [2; 3], AxSeq [1],
                   BReduce "out = max(a,out)" (BInput "x" [2; 3]) (BFresh [2; 1])
                     (Some "-INFINITY"%string))
       (BInput "g" [2; 1]) [P_reduce_op] =
       (Ok (BBinary "a*b" (BBinary "a/b" ret2 div ret2) (BInput "g" [2; 1])
              (BBinary "a/b" ret2 div ret2)),
        [P_reduce_op] ++ [P_binary_op; P_reduce_op; P_binary_op; P_binary_op]) /\
     shape ret2 = [2; 3] /\ shape div = [2; 1]).
Proof.
  destruct reduce_backward_after_forward as [Hs Hm]; split.
  - exact (Hs (BInput "x" [2; 3]) (AxSeq [1]) [2; 3]
             (BReduce "out += a" (BInput "x" [2; 3]) (BFresh [2; 1]) None)
             [] [P_reduce_op] (BInput "g" [2; 1]) eq_refl).
  - exact (Hm (BInput "x" [2; 3]) (AxSeq [1])
             (BInput "x" [2; 3], AxSeq [1],
              BReduce "out = max(a,out)" (BInput "x" [2; 3]) (BFresh [2; 1])
                (Some "-INFINITY"%string))
             (BReduce "out = max(a,out)" (BInput "x" [2; 3]) (BFresh [2; 1])
                (Some "-INFINITY"%string))
             [] [P_reduce_op] (BInput "g" [2; 1]) eq_refl).
Defined.

Lemma listed_In : forall n l k,
  listed n l k = true <-> In k l \/ In (k - n) l.
Proof.
  intros n l k; unfold listed; rewrite existsb_exists; split.
  - intros (a & Ha & Hk); apply orb_prop in Hk as [Hk | Hk];
      apply Z.eqb_eq in Hk;
      [left; subst k; exact Ha | right; replace (k - n) with a by lia; exact Ha].
  - intros [Hk | Hk]; [exists k | exists (k - n)]; split; auto;
      apply orb_true_iff; [left | right]; apply Z.eqb_eq; lia.
Qed.

(** X6: in bounds, [reduce_shape] depends only on which dimensions the axis
    list names: two in-range lists naming the same dimensions (a negative
    index standing for its positive alias, in any order, with repeats) give
    the same shape. *)
Theorem reduce_shape_same_dims :
  forall sh l1 l2,
    axes_in_range (Z.of_nat (List.length sh)) l1 = true ->
    axes_in_range (Z.of_nat (List.length sh)) l2 = true ->
    (forall k, 0 <= k < Z.of_nat (List.length sh) ->
       (In k l1 \/ In (k - Z.of_nat (List.length sh)) l1) <->
       (In k l2 \/ In (k - Z.of_nat (List.length sh)) l2)) ->
    reduce_shape sh (AxSeq l1) = reduce_shape sh (AxSeq l2).
Proof.
  intros sh l1 l2 H1 H2 Hsame.
  destruct (reduce_shape_in_range sh l1 H1) as (o1 & -> & Hl1 & Hn1).
  destruct (reduce_shape_in_range sh l2 H2) as (o2 & -> & Hl2 & Hn2).
  f_equal; apply nth_ext with (d := 0) (d' := 0); [lia |].
  intros k Hk; rewrite Hn1, Hn2 by lia.
  assert (Hb : listed (Z.of_nat (List.length sh)) l1 (Z.of_nat k) =
               listed (Z.of_nat (List.length sh)) l2 (Z.of_nat k)).
  { apply eq_true_iff_eq; rewrite !listed_In; apply Hsame; lia. }
  rewrite Hb; reflexivity.
Qed.

Lemma reduce_shape_same_dims_witness :
  reduce_shape [2; 3; 4] (AxSeq [-1; 0]) = reduce_shape [2; 3; 4] (AxSeq [2; 0; 2]).
Proof.
  apply reduce_shape_same_dims; [reflexivity | reflexivity |].
  cbn [List.length Z.of_nat Pos.of_succ_nat Pos.succ]; intros k Hk.
  assert (k = 0 \/ k = 1 \/ k = 2) as [-> | [-> | ->]] by lia; cbn; lia.
Defined.

(** X7: Conv2D.backward hands its kernels the same [conv_args] as the
    forward: after a successful forward, which returns
    [conv(x, w, out, conv_args)], the backward on a 4-d gradient returns
    [convdx(w, grad_output, Buffer(x.shape), conv_args)] and
    [convdw(x, grad_output, Buffer(w.shape), conv_args)] (each when its
    gradient is needed), with that very [conv_args]. *)
Theorem conv2d_backward_same_args :
  forall ctx x w ctx' s r ng g,
    eval (Conv2D.forward ctx x w) = Ok ((ctx', s), r) ->
    List.length (shape g) = 4%nat ->
    exists out args,
      r = BConv x w out args /\
      eval (Conv2D.backward ng ctx' s g)
        = Ok ((if fst ng then Some (BConvdx w g (BFresh (shape x)) args) else None),
              (if snd ng then Some (BConvdw x g (BFresh (shape w)) args) else None)).
Proof.
  intros ctx x w ctx' s r ng g H Hg; revert ng.
  unfold Conv2D.forward in H; cbn [stride groups] in H.
  step_M.
  injection H as <- <- <-.
  intros [n0 n1]; do 2 eexists; split; [reflexivity |].
  destruct (unpack4 (shape g)) as [[[[g0 g1] g2] g3] | e] eqn:Eg;
    [| destruct (shape g) as [| ? [| ? [| ? [| ? [|]]]]]; cbn in *; discriminate].
  unfold Conv2D.backward.
  repeat (repeat autounfold with ops;
          cbn -[unpack4 unpack_stride py_floordiv py_mod promote_stride];
          match goal with
          | E : ?a = Ok _ |- context [?a] => rewrite E
          | E : ?a = true |- context [?a] => rewrite E
          end).
  apply unpack4_ok in E, E5; rewrite E, E5.
  destruct n0, n1; reflexivity.
Qed.

Lemma conv2d_backward_same_args_witness :
  exists out args,
    BConv (BInput "x" [1; 3; 5; 5]) (BInput "w" [2; 3; 3; 3])
      (BFresh [1; 2; 3; 3]) [3; 3; 1; 2; 3; 3; 3; 5; 5; 1; 1; 1]
      = BConv (BInput "x" [1; 3; 5; 5]) (BInput "w" [2; 3; 3; 3]) out args /\
    eval (Conv2D.backward (true, true) {| stride := STuple [1; 1]; groups := 1 |}
            (BInput "x" [1; 3; 5; 5], BInput "w" [2; 3; 3; 3])
            (BInput "g" [1; 2; 3; 3]))
      = Ok (Some (BConvdx (BInput "w" [2; 3; 3; 3]) (BInput "g" [1; 2; 3; 3])
                    (BFresh [1; 3; 5; 5]) args),
            Some (BConvdw (BInput "x" [1; 3; 5; 5]) (BInput "g" [1; 2; 3; 3])
                    (BFresh [2; 3; 3; 3]) args)).
Proof.
  exact (conv2d_backward_same_args {| stride := SInt 1; groups := 1 |}
           (BInput "x" [1; 3; 5; 5]) (BInput "w" [2; 3; 3; 3])
           {| stride := STuple [1; 1]; groups := 1 |}
           (BInput "x" [1; 3; 5; 5], BInput "w" [2; 3; 3; 3])
           (BConv (BInput "x" [1; 3; 5; 5]) (BInput "w" [2; 3; 3; 3])
              (BFresh [1; 2; 3; 3]) [3; 3; 1; 2; 3; 3; 3; 5; 5; 1; 1; 1])
           (true, true) (BInput "g" [1; 2; 3; 3]) eq_refl eq_refl).
Defined.

Lemma py_index_err : forall A (l : list A) i e, py_index l i = Err e -> e = IndexError.
Proof.
  intros A l i e; unfold py_index.
  destruct (_ <? 0); [congruence |].
  destruct (nth_error _ _); congruence.
Qed.

Lemma py_index_in_range : forall (l : list Z) i,
  - Z.of_nat (List.length l) <= i < Z.of_nat (List.length l) ->
  py_index l i =
    Ok (nth (Z.to_nat (if i <? 0 then i + Z.of_nat (List.length l) else i)) l 0).
Proof.
  intros l i Hi; unfold py_index.
  assert (Hj : 0 <= (if i <? 0 then i + Z.of_nat (List.length l) else i)
                 < Z.of_nat (List.length l))
    by (destruct (Z.ltb_spec i 0); lia).
  rewrite (proj2 (Z.ltb_ge _ 0)) by lia.
  rewrite (nth_error_nth' l 0) by lia; reflexivity.
Qed.

Lemma py_index_out_of_range : forall A (l : list A) i,
  ~ (- Z.of_nat (List.length l) <= i < Z.of_nat (List.length l)) ->
  py_index l i = Err IndexError.
Proof.
  intros A l i Hi; unfold py_index.
  destruct (Z.ltb_spec i 0).
  - rewrite (proj2 (Z.ltb_lt _ 0)) by lia; reflexivity.
  - rewrite (proj2 (Z.ltb_ge i 0)) by lia.
    rewrite (proj2 (nth_error_None l (Z.to_nat i))) by lia; reflexivity.
Qed.

Lemma map_result_index_error : forall A B (f : A -> result B) l,
  (forall a e, In a l -> f a = Err e -> e = IndexError) ->
  (exists a, In a l /\ f a = Err IndexError) ->
  map_result f l = Err IndexError.
Proof.
  intros A B f l; induction l as [| a l IH]; intros Hf [b [Hb Hfb]]; [destruct Hb |].
  cbn [map_result].
  destruct (f a) as [v | e] eqn:Ea.
  - destruct Hb as [-> | Hb]; [congruence |].
    rewrite IH; [reflexivity | |].
    + intros c e Hc; apply Hf; right; exact Hc.
    + exists b; auto.
  - apply (Hf a e (or_introl eq_refl)) in Ea; congruence.
Qed.

(** X8: Matmul.forward on a 0-d [input] or on a [weight] with fewer than
    two dimensions raises [IndexError] (from [input.shape[-1]] or
    [weight.shape[-2]]) before any primitive runs; a 1-d weight is not
    treated as a vector. *)
Theorem matmul_forward_index_error :
  forall input weight tr,
    shape input = [] \/ (List.length (shape weight) < 2)%nat ->
    Matmul.forward input weight tr = (Err IndexError, tr).
Proof.
  intros input weight tr Hs; unfold Matmul.forward; repeat autounfold with ops.
  destruct Hs as [Hi | Hw].
  - rewrite Hi; reflexivity.
  - destruct (py_index (shape input) (-1)) as [a | e] eqn:Ea;
      [| apply py_index_err in Ea; subst e; reflexivity].
    rewrite py_index_out_of_range by lia; reflexivity.
Qed.

Lemma matmul_forward_index_error_witness :
  Matmul.forward (BInput "a" [2; 3]) (BInput "b" [3]) [] = (Err IndexError, []).
Proof.
  apply matmul_forward_index_error; right; cbn; lia.
Defined.

(** X9: Transpose.forward does not check that [order] is a permutation.
    If every entry of [order] is a valid (possibly negative) axis of [x], it
    runs [perm_axis] into a buffer of shape [[x.shape[i] for i in order]],
    repeats allowed; if some entry is out of range it raises [IndexError]
    before any primitive runs. *)
Theorem transpose_forward_any_order :
  forall x order tr,
    ((forall i, In i order ->
        - Z.of_nat (List.length (shape x)) <= i < Z.of_nat (List.length (shape x))) ->
     Transpose.forward x order tr =
       (Ok (order,
            BPerm x order
              (BFresh (map (fun i => nth (Z.to_nat (if i <? 0
                                                    then i + Z.of_nat (List.length (shape x))
                                                    else i)) (shape x) 0) order))),
        tr ++ [P_perm_axis])) /\
    ((exists i, In i order /\
        ~ (- Z.of_nat (List.length (shape x)) <= i < Z.of_nat (List.length (shape x)))) ->
     Transpose.forward x order tr = (Err IndexError, tr)).
Proof.
  intros x order tr; split; intros H; unfold Transpose.forward; repeat autounfold with ops.
  - rewrite (map_result_ok _ _ _
               (fun i => nth (Z.to_nat (if i <? 0 then i + Z.of_nat (List.length (shape x))
                                        else i)) (shape x) 0));
      [reflexivity |].
    intros a Ha; apply py_index_in_range, H, Ha.
  - rewrite map_result_index_error; [reflexivity | |].
    + intros a e _; apply py_index_err.
    + destruct H as (i & Hi & Hr); exists i; split; [exact Hi |].
      apply py_index_out_of_range, Hr.
Qed.

Lemma transpose_forward_any_order_witness :
  Transpose.forward (BInput "x" [2; 3; 4]) [-1; 0; -1] []
    = (Ok ([-1; 0; -1], BPerm (BInput "x" [2; 3; 4]) [-1; 0; -1] (BFresh [4; 2; 4])),
       [P_perm_axis]) /\
  Transpose.forward (BInput "x" [2; 3; 4]) [0; 3] [] = (Err IndexError, []).
Proof.
  destruct (transpose_forward_any_order (BInput "x" [2; 3; 4]) [-1; 0; -1] [])
    as [Hok _].
  destruct (transpose_forward_any_order (BInput "x" [2; 3; 4]) [0; 3] [])
    as [_ Herr].
  split.
  - apply Hok; cbn; intros i Hi; repeat destruct Hi as [<- | Hi]; [lia | lia | lia | destruct Hi].
  - apply Herr; exists 3; split; [right; left; reflexivity | cbn; lia].
Defined.

(** X10: an empty axis list reduces nothing: Sum.forward and Max.forward
    with [axis=()] run their [reduce_op] into a buffer of the input's own
    shape. *)
Theorem reduce_empty_axis :
  forall x tr,
    Sum.forward x (AxSeq []) tr =
      (Ok (shape x, BReduce "out += a" x (BFresh (shape x)) None), tr ++ [P_reduce_op]) /\
    Max.forward x (AxSeq []) tr =
      (Ok ((x, AxSeq [], BReduce "out = max(a,out)" x (BFresh (shape x))
                           (Some "-INFINITY"%string)),
           BReduce "out = max(a,out)" x (BFresh (shape x)) (Some "-INFINITY"%string)),
       tr ++ [P_reduce_op]).
Proof.
  intros x tr.
  assert (Hr : reduce_shape (shape x) (AxSeq []) = Ok (shape x)).
  { destruct (reduce_shape_in_range (shape x) [] eq_refl) as (o & Ho & Hl & Hn).
    rewrite Ho; f_equal; apply nth_ext with (d := 0) (d' := 0); [exact Hl |].
    intros k Hk; rewrite Hn by lia; reflexivity. }
  unfold Sum.forward, Max.forward; repeat autounfold with ops; rewrite Hr.
  split; reflexivity.
Qed.

(** X11: Conv2D.forward with [groups=0] always raises, before any
    primitive runs.  When the shapes unpack and the stride components are
    nonzero, the channel check [cin*groups != cin_] raises its [Exception]
    unless [cin_ = 0], and then [cout % groups] raises
    [ZeroDivisionError]. *)
Theorem conv2d_zero_groups_raises :
  (forall st x w tr,
     exists e, Conv2D.forward {| stride := st; groups := 0 |} x w tr = (Err e, tr)) /\
  (forall st x w bs cin_ iy ix cout cin H W ys xs tr,
     shape x = [bs; cin_; iy; ix] -> shape w = [cout; cin; H; W] ->
     promote_stride st = STuple [ys; xs] -> ys <> 0 -> xs <> 0 ->
     Conv2D.forward {| stride := st; groups := 0 |} x w tr
       = (Err (if cin_ =? 0 then ZeroDivisionError else Exception conv_mismatch_msg),
          tr)).
Proof.
  split.
  - intros st x w tr; unfold Conv2D.forward; cbn [stride groups].
    repeat autounfold with ops; unfold py_mod.
    destruct (unpack4 (shape w)) as [[[[cout cin] H] W] | e]; cbn; [| eauto].
    destruct (unpack_stride (promote_stride st)) as [[ys xs] | e]; cbn; [| eauto].
    destruct (unpack4 (shape x)) as [[[[bs cin_] iy] ix] | e]; cbn; [| eauto].
    destruct (py_floordiv (iy - (H - ys)) ys) as [oy | e]; cbn; [| eauto].
    destruct (py_floordiv (ix - (W - xs)) xs) as [ox | e]; cbn; [| eauto].
    destruct (cin * 0 =? cin_); cbn; eauto.
  - intros st x w bs cin_ iy ix cout cin H W ys xs tr Hx Hw Hst Hys Hxs.
    unfold Conv2D.forward; cbn [stride groups]; rewrite Hst, Hx, Hw.
    repeat autounfold with ops; unfold py_floordiv, py_mod; cbn.
    apply Z.eqb_neq in Hys, Hxs; rewrite Hys, Hxs; cbn.
    rewrite Z.mul_0_r.
    destruct (Z.eqb_spec 0 cin_) as [<- | Hc]; cbn; [reflexivity |].
    destruct (Z.eqb_spec cin_ 0); [congruence | reflexivity].
Qed.

Lemma conv2d_zero_groups_raises_witness :
  Conv2D.forward {| stride := SInt 1; groups := 0 |}
    (BInput "x" [1; 3; 5; 5]) (BInput "w" [2; 3; 3; 3]) []
    = (Err (if 3 =? 0 then ZeroDivisionError else Exception conv_mismatch_msg), []) /\
  Conv2D.forward {| stride := SInt 1; groups := 0 |}
    (BInput "x" [1; 0; 5; 5]) (BInput "w" [2; 3; 3; 3]) []
    = (Err (if 0 =? 0 then ZeroDivisionError else Exception conv_mismatch_msg), []).
Proof.
  destruct conv2d_zero_groups_raises as [_ Hz]; split.
  - apply (Hz (SInt 1) (BInput "x" [1; 3; 5; 5]) (BInput "w" [2; 3; 3; 3])
             1 3 5 5 2 3 3 3 1 1); try reflexivity; lia.
  - apply (Hz (SInt 1) (BInput "x" [1; 0; 5; 5]) (BInput "w" [2; 3; 3; 3])
             1 0 5 5 2 3 3 3 1 1); try reflexivity; lia.
Defined.
